(** * FFmpeg fragments: Dolby Vision RPU context and two DSP dispatch
      initialisers

    Shallow embedding of
    - [libavcodec/dovi_rpu.h]
    - [libavcodec/aarch64/pixblockdsp_init_aarch64.c]
    - [libavcodec/riscv/llvidencdsp_init.c]

    C [int] and [unsigned] values are integers of [Z]; a pointer is an
    [option]: [None] is [NULL].  A function pointer is an optional
    [kernel] symbol. *)

From Stdlib Require Import ZArith Lia.
From stdpp Require Import base decidable option list vector gmap.

Local Open Scope Z_scope.

(* ===================================================================== *)
(** * Part I: the embedding                                               *)
(* ===================================================================== *)

(** ** Code addresses *)

Module Fn.

(** The functions the two initialisers can install, and every other
    function of the program (the scalar C kernels that the generic
    initialiser seeds the table with), told apart by an identifier. *)
Inductive kernel : Type :=
  | ff_get_pixels_neon
  | ff_diff_pixels_neon
  | ff_llvidenc_diff_bytes_rvv
  | c_kernel (id : positive).

#[export] Instance kernel_eq_dec : EqDecision kernel.
Proof. solve_decision. Defined.

(** A function pointer; [None] is the null pointer. *)
Definition fnptr : Type := option kernel.

End Fn.

(** ** The host CPU *)

Module CPU.

(** [av_get_cpu_flags()] reads the capability set the library detected
    for the running host: an [int] bit set. *)
Record host : Type := { av_get_cpu_flags : Z }.

End CPU.

(** ** aarch64 pixel-block dispatch *)

Module PixblockDSP.
Import Fn CPU.

Section Aarch64.

(** [have_neon(flags)] is a macro of [libavutil/aarch64/cpu.h]; the
    initialiser only branches on its truth value. *)
Variable have_neon : Z -> bool.

(** [AVCodecContext] comes from [avcodec.h]; the initialiser receives a
    pointer to one and never looks at it. *)
Variable AVCodecContext : Type.

(** [PixblockDSPContext] is declared in [pixblockdsp.h].  These are the
    four slots the initialiser names; [pix_rest] stands for whatever
    else the declaration holds. *)
Variable Rest : Type.

Record PixblockDSPContext : Type := {
  get_pixels            : fnptr;
  get_pixels_unaligned  : fnptr;
  diff_pixels           : fnptr;
  diff_pixels_unaligned : fnptr;
  pix_rest              : Rest
}.

Definition set_get_pixels (v : fnptr) (c : PixblockDSPContext) :=
  {| get_pixels := v;
     get_pixels_unaligned := get_pixels_unaligned c;
     diff_pixels := diff_pixels c;
     diff_pixels_unaligned := diff_pixels_unaligned c;
     pix_rest := pix_rest c |}.

Definition set_get_pixels_unaligned (v : fnptr) (c : PixblockDSPContext) :=
  {| get_pixels := get_pixels c;
     get_pixels_unaligned := v;
     diff_pixels := diff_pixels c;
     diff_pixels_unaligned := diff_pixels_unaligned c;
     pix_rest := pix_rest c |}.

Definition set_diff_pixels (v : fnptr) (c : PixblockDSPContext) :=
  {| get_pixels := get_pixels c;
     get_pixels_unaligned := get_pixels_unaligned c;
     diff_pixels := v;
     diff_pixels_unaligned := diff_pixels_unaligned c;
     pix_rest := pix_rest c |}.

Definition set_diff_pixels_unaligned (v : fnptr) (c : PixblockDSPContext) :=
  {| get_pixels := get_pixels c;
     get_pixels_unaligned := get_pixels_unaligned c;
     diff_pixels := diff_pixels c;
     diff_pixels_unaligned := v;
     pix_rest := pix_rest c |}.

(** [ff_pixblockdsp_init_aarch64(c, avctx, high_bit_depth)].  The table
    [*c] is passed in and the updated table returned.  A chained
    assignment [a = b = v] stores [v] in [b] first and then the value
    of that assignment in [a]. *)
Definition ff_pixblockdsp_init_aarch64 (h : host)
    (c : PixblockDSPContext) (avctx : AVCodecContext)
    (high_bit_depth : Z) : PixblockDSPContext :=
  let cpu_flags := av_get_cpu_flags h in
  if have_neon cpu_flags then
    let c :=
      if high_bit_depth =? 0 then
        let c := set_get_pixels (Some ff_get_pixels_neon) c in
        set_get_pixels_unaligned (get_pixels c) c
      else c in
    let c := set_diff_pixels (Some ff_diff_pixels_neon) c in
    set_diff_pixels_unaligned (diff_pixels c) c
  else c.

End Aarch64.

Arguments get_pixels {Rest} _.
Arguments get_pixels_unaligned {Rest} _.
Arguments diff_pixels {Rest} _.
Arguments diff_pixels_unaligned {Rest} _.
Arguments pix_rest {Rest} _.
Arguments ff_pixblockdsp_init_aarch64
  have_neon {AVCodecContext Rest} h c avctx high_bit_depth.

End PixblockDSP.

(** ** RISC-V lossless video encoder dispatch *)

Module LLVidEncDSP.
Import Fn CPU.

Section Riscv.

(** [HAVE_RVV] is set by the build configuration ([config.h]). *)
Variable HAVE_RVV : bool.

(** [AV_CPU_FLAG_RVV_I32] is a constant of [libavutil/cpu.h]. *)
Variable AV_CPU_FLAG_RVV_I32 : Z.

(** [LLVidEncDSPContext] is declared in [lossless_videoencdsp.h];
    [llv_rest] stands for every field other than [diff_bytes]. *)
Variable Rest : Type.

Record LLVidEncDSPContext : Type := {
  diff_bytes : fnptr;
  llv_rest   : Rest
}.

Definition set_diff_bytes (v : fnptr) (c : LLVidEncDSPContext) :=
  {| diff_bytes := v; llv_rest := llv_rest c |}.

(** [ff_llvidencdsp_init_riscv(c)]: the body is compiled only under
    [#if HAVE_RVV]. *)
Definition ff_llvidencdsp_init_riscv (h : host)
    (c : LLVidEncDSPContext) : LLVidEncDSPContext :=
  if HAVE_RVV then
    let flags := av_get_cpu_flags h in
    if negb (Z.land flags AV_CPU_FLAG_RVV_I32 =? 0) then
      set_diff_bytes (Some ff_llvidenc_diff_bytes_rvv) c
    else c
  else c.

End Riscv.

Arguments diff_bytes {Rest} _.
Arguments llv_rest {Rest} _.
Arguments ff_llvidencdsp_init_riscv HAVE_RVV AV_CPU_FLAG_RVV_I32 {Rest} h c.

End LLVidEncDSP.

(** ** Dolby Vision RPU header *)

Module DOVI.

Definition DOVI_MAX_DM_ID : Z := 15.

Definition FF_DOVI_AUTOMATIC : Z := -1.

(** [ff_dovi_rpu_extension_is_static(level)] *)
Definition ff_dovi_rpu_extension_is_static (level : Z) : Z :=
  match level with
  | 6 => 1
  | 10 => 1
  | 32 => 1
  | 254 => 1
  | 255 => 1
  | _ => 0
  end.

(** *** Arrays of a declared size

    A C array [T a[n]] is a [vec T n]; [FF_ARRAY_ELEMS] is its declared
    element count and [vec_store] the assignment [a[i] = x] (nothing is
    stored past the end: the callers below check the index first). *)

Definition FF_ARRAY_ELEMS {A : Type} {n : nat} (a : vec A n) : Z :=
  Z.of_nat (length (vec_to_list a)).

Fixpoint vec_store {A : Type} {n : nat} (i : nat) (x : A) (a : vec A n)
    {struct a} : vec A n :=
  match a with
  | vnil => vnil
  | vcons y a' =>
      match i with
      | O => vcons x a'
      | S i' => vcons y (vec_store i' x a')
      end
  end.

(** *** Memory

    [refs] gives each live reference-counted (RefStruct) object its
    reference count, [bufs] each live [av_malloc] block its byte size. *)

Record heap : Type := {
  refs : gmap positive nat;
  bufs : gmap positive Z
}.

(** Modelled from the spec: [ff_refstruct_unref] is defined in
    [refstruct.c], which is not among the sources.  The spec, section 4.1,
    speaks of releasing a reference-counted slot and section 9 of handles
    with a count: releasing a null slot does nothing, releasing a
    reference takes one from the object's count, and the object dies with
    its last reference. *)
Definition ff_refstruct_unref (p : option positive) (m : heap) : heap :=
  match p with
  | None => m
  | Some a =>
      match refs m !! a with
      | Some (S (S k)) => {| refs := <[a := S k]> (refs m); bufs := bufs m |}
      | _ => {| refs := delete a (refs m); bufs := bufs m |}
      end
  end.

(** Modelled from the spec: [av_free] belongs to [libavutil/mem.c], which is
    not among the sources.  The spec, section 4.1, "free the scratch
    buffer": the block is no longer live; freeing a null pointer does
    nothing. *)
Definition av_free (p : option positive) (m : heap) : heap :=
  match p with
  | None => m
  | Some a => {| refs := refs m; bufs := delete a (bufs m) |}
  end.

Section Context_.

(** The three record types below come from [libavutil/dovi_meta.h]; the
    header under study only stores them.  Each comes with its all-zero
    value, what a zero-initialised C object holds, and an extension block
    with its [level]. *)
Variable AVDOVIDecoderConfigurationRecord : Type.
Variable cfg_zero : AVDOVIDecoderConfigurationRecord.
Variable AVDOVIRpuDataHeader : Type.
Variable header_zero : AVDOVIRpuDataHeader.
Variable AVDOVIDmData : Type.
Variable dm_zero : AVDOVIDmData.
Variable dm_level : AVDOVIDmData → Z.

Record DOVIExt : Type := {
  dm_static   : vec AVDOVIDmData 7;   (* static extension blocks *)
  dm_dynamic  : vec AVDOVIDmData 25;  (* dynamic extension blocks *)
  num_static  : Z;
  num_dynamic : Z
}.

Record DOVIContext : Type := {
  logctx     : option positive;
  enable     : Z;
  cfg        : AVDOVIDecoderConfigurationRecord;
  header     : AVDOVIRpuDataHeader;
  mapping    : option positive;
  color      : option positive;
  ext_blocks : option positive;  (* RefStruct, or NULL *)
  dm         : option positive;  (* RefStruct *)
  vdr        : vec (option positive) (Z.to_nat (DOVI_MAX_DM_ID + 1));
  rpu_buf    : option positive;  (* temporary buffer *)
  rpu_buf_sz : Z
}.

(** A freshly allocated, zeroed extension block set. *)
Definition DOVIExt_zero : DOVIExt :=
  {| dm_static := vreplicate 7 dm_zero;
     dm_dynamic := vreplicate 25 dm_zero;
     num_static := 0;
     num_dynamic := 0 |}.

(** The compound literal [(DOVIContext) { .logctx = l }]: every other
    member is zero. *)
Definition DOVIContext_only_logctx (l : option positive) : DOVIContext :=
  {| logctx := l;
     enable := 0;
     cfg := cfg_zero;
     header := header_zero;
     mapping := None;
     color := None;
     ext_blocks := None;
     dm := None;
     vdr := vreplicate _ None;
     rpu_buf := None;
     rpu_buf_sz := 0 |}.

(** Zeroed storage, as the caller creates a context. *)
Definition DOVIContext_zero : DOVIContext := DOVIContext_only_logctx None.

(** Release [dm], every [vdr[i]] in index order, and [ext_blocks]. *)
Definition release_slots (s : DOVIContext) (m : heap) : heap :=
  let m := ff_refstruct_unref (dm s) m in
  let m := foldl (λ m p, ff_refstruct_unref p m) m (vec_to_list (vdr s)) in
  ff_refstruct_unref (ext_blocks s) m.

(** Modelled from the spec: [ff_dovi_ctx_unref] is declared in the header
    ("Completely reset a DOVIContext, preserving only logctx") and defined
    in [dovi_rpu.c], which is not among the sources.  The spec, section
    4.1: "release every reference-counted slot, free the scratch buffer,
    zero the context except for logctx". *)
Definition ff_dovi_ctx_unref (s : DOVIContext) (m : heap)
    : DOVIContext * heap :=
  let m := release_slots s m in
  let m := av_free (rpu_buf s) m in
  (DOVIContext_only_logctx (logctx s), m).

(** Modelled from the spec: [ff_dovi_ctx_flush] is declared in the header
    ("Resets per-frame state, but preserves the stream-wide configuration
    record") and defined in [dovi_rpu.c], which is not among the sources.
    The spec, section 4.1: "release dm, every vdr[i], ext_blocks; clear
    header, mapping, color.  Retain cfg, enable, logctx, and scratch buffer
    allocation (size may be kept for reuse)". *)
Definition ff_dovi_ctx_flush (s : DOVIContext) (m : heap)
    : DOVIContext * heap :=
  let m := release_slots s m in
  ({| logctx := logctx s;
      enable := enable s;
      cfg := cfg s;
      header := header_zero;
      mapping := None;
      color := None;
      ext_blocks := None;
      dm := None;
      vdr := vreplicate _ None;
      rpu_buf := rpu_buf s;
      rpu_buf_sz := rpu_buf_sz s |}, m).

(** Modelled from the spec: the parser that fills an extension block set
    is in [dovi_rpudec.c], which is not among the sources.  The spec,
    section 3.1: the set "holds up to 7 static extension blocks and up to
    25 dynamic extension blocks with their respective counts"; section
    4.7: the classification "partitions blocks between the two bounded
    arrays"; section 7 lists buffer overflow among the errors.  A block
    goes to the next free entry of the array its level selects, and a
    block that finds its array full is an error ([None]). *)
Definition ext_store_block (e : DOVIExt) (b : AVDOVIDmData)
    : option DOVIExt :=
  if negb (ff_dovi_rpu_extension_is_static (dm_level b) =? 0) then
    if num_static e <? FF_ARRAY_ELEMS (dm_static e) then
      Some {| dm_static :=
                vec_store (Z.to_nat (num_static e)) b (dm_static e);
              dm_dynamic := dm_dynamic e;
              num_static := num_static e + 1;
              num_dynamic := num_dynamic e |}
    else None
  else
    if num_dynamic e <? FF_ARRAY_ELEMS (dm_dynamic e) then
      Some {| dm_static := dm_static e;
              dm_dynamic :=
                vec_store (Z.to_nat (num_dynamic e)) b (dm_dynamic e);
              num_static := num_static e;
              num_dynamic := num_dynamic e + 1 |}
    else None.

(** The blocks of one RPU, stored in the order they arrive. *)
Fixpoint ext_store_blocks (bs : list AVDOVIDmData) (e : DOVIExt)
    : option DOVIExt :=
  match bs with
  | [] => Some e
  | b :: bs' =>
      match ext_store_block e b with
      | Some e' => ext_store_blocks bs' e'
      | None => None
      end
  end.

(** The blocks a set holds: the first [num_static] entries of [dm_static]
    and the first [num_dynamic] entries of [dm_dynamic]. *)
Definition ext_static_blocks (e : DOVIExt) : list AVDOVIDmData :=
  take (Z.to_nat (num_static e)) (vec_to_list (dm_static e)).

Definition ext_dynamic_blocks (e : DOVIExt) : list AVDOVIDmData :=
  take (Z.to_nat (num_dynamic e)) (vec_to_list (dm_dynamic e)).

(** Modelled from the spec: the code that indexes [vdr] is in
    [dovi_rpudec.c] and [dovi_rpuenc.c], which are not among the sources.
    The spec, section 3.1: "a DM-id index is in [0, 15]"; section 4.2
    lists an out-of-range DM id among the failures of a parse.
    [vdr_index] is the slot a DM id selects, or [None] for the failure. *)
Definition vdr_index (dm_id : Z) : option nat :=
  if (0 <=? dm_id) && (dm_id <=? DOVI_MAX_DM_ID) then Some (Z.to_nat dm_id)
  else None.

(** [s->vdr[dm_id]] read and written through [vdr_index]. *)
Definition vdr_get (s : DOVIContext) (dm_id : Z)
    : option (option positive) :=
  match vdr_index dm_id with
  | Some i => vec_to_list (vdr s) !! i
  | None => None
  end.

Definition vdr_set (s : DOVIContext) (dm_id : Z) (p : option positive)
    : option DOVIContext :=
  match vdr_index dm_id with
  | Some i =>
      Some {| logctx := logctx s;
              enable := enable s;
              cfg := cfg s;
              header := header s;
              mapping := mapping s;
              color := color s;
              ext_blocks := ext_blocks s;
              dm := dm s;
              vdr := vec_store i p (vdr s);
              rpu_buf := rpu_buf s;
              rpu_buf_sz := rpu_buf_sz s |}
  | None => None
  end.

Section Metadata.

(** Modelled from the spec: [AVERROR] is a macro of [libavutil/error.h],
    which is not among the sources.  The spec, section 7: "Negative integer
    status codes are returned by every fallible operation".  An error
    number of [errno.h] is a positive [int], and its status code is its
    negation. *)
Definition AVERROR (errnum : positive) : Z := - Z.pos errnum.

(** What the spec leaves to the surrounding framework: when a context has
    metadata to hand out, the byte size of the record the allocator
    returns (section 9, open question 1) and the error number of an
    exhausted memory.  The size of a C object is at least one byte and an
    error number is positive: both are [positive]. *)
Variable metadata_available : DOVIContext → bool.
Variable sizeof_metadata : positive.
Variable ENOMEM : positive.

(** Modelled from the spec: [ff_dovi_get_metadata] is declared in the header
    ("Returns the size of *out_metadata, a negative error code, or 0 if no
    metadata is available to return") and defined in [dovi_rpudec.c], which
    is not among the sources.  The spec, section 4.3: "Ownership of *out
    transfers to the caller.  Returns the byte size of the allocation on
    success, 0 when no metadata is available, or a negative status on
    failure (notably allocation failure)".  [alloc] is what the allocator
    answers: the address of a new block, or [None] when memory is
    exhausted.  The result is the returned [int], the pointer stored in
    [*out] ([None]: nothing stored) and the memory afterwards, in which
    the new block is live with its size. *)
Definition ff_dovi_get_metadata (s : DOVIContext) (alloc : option positive)
    (m : heap) : Z * option positive * heap :=
  if negb (metadata_available s) then (0, None, m)
  else
    match alloc with
    | None => (AVERROR ENOMEM, None, m)
    | Some a =>
        (Z.pos sizeof_metadata, Some a,
         {| refs := refs m;
            bufs := <[a := Z.pos sizeof_metadata]> (bufs m) |})
    end.

End Metadata.

End Context_.

Arguments dm_static {AVDOVIDmData} _.
Arguments dm_dynamic {AVDOVIDmData} _.
Arguments num_static {AVDOVIDmData} _.
Arguments num_dynamic {AVDOVIDmData} _.
Arguments logctx {AVDOVIDecoderConfigurationRecord AVDOVIRpuDataHeader} _.
Arguments enable {AVDOVIDecoderConfigurationRecord AVDOVIRpuDataHeader} _.
Arguments cfg {AVDOVIDecoderConfigurationRecord AVDOVIRpuDataHeader} _.
Arguments header {AVDOVIDecoderConfigurationRecord AVDOVIRpuDataHeader} _.
Arguments mapping {AVDOVIDecoderConfigurationRecord AVDOVIRpuDataHeader} _.
Arguments color {AVDOVIDecoderConfigurationRecord AVDOVIRpuDataHeader} _.
Arguments ext_blocks {AVDOVIDecoderConfigurationRecord AVDOVIRpuDataHeader} _.
Arguments dm {AVDOVIDecoderConfigurationRecord AVDOVIRpuDataHeader} _.
Arguments vdr {AVDOVIDecoderConfigurationRecord AVDOVIRpuDataHeader} _.
Arguments rpu_buf {AVDOVIDecoderConfigurationRecord AVDOVIRpuDataHeader} _.
Arguments rpu_buf_sz {AVDOVIDecoderConfigurationRecord AVDOVIRpuDataHeader} _.
Arguments DOVIExt_zero {AVDOVIDmData} dm_zero.
Arguments DOVIContext_only_logctx
  {AVDOVIDecoderConfigurationRecord} cfg_zero
  {AVDOVIRpuDataHeader} header_zero l.
Arguments DOVIContext_zero
  {AVDOVIDecoderConfigurationRecord} cfg_zero
  {AVDOVIRpuDataHeader} header_zero.
Arguments release_slots
  {AVDOVIDecoderConfigurationRecord AVDOVIRpuDataHeader} s m.
Arguments ff_dovi_ctx_unref
  {AVDOVIDecoderConfigurationRecord} cfg_zero
  {AVDOVIRpuDataHeader} header_zero s m.
Arguments ff_dovi_ctx_flush
  {AVDOVIDecoderConfigurationRecord AVDOVIRpuDataHeader} header_zero s m.
Arguments ext_store_block {AVDOVIDmData} dm_level e b.
Arguments ext_store_blocks {AVDOVIDmData} dm_level bs e.
Arguments ext_static_blocks {AVDOVIDmData} e.
Arguments ext_dynamic_blocks {AVDOVIDmData} e.
Arguments vdr_get
  {AVDOVIDecoderConfigurationRecord AVDOVIRpuDataHeader} s dm_id.
Arguments vdr_set
  {AVDOVIDecoderConfigurationRecord AVDOVIRpuDataHeader} s dm_id p.
Arguments ff_dovi_get_metadata
  {AVDOVIDecoderConfigurationRecord AVDOVIRpuDataHeader}
  metadata_available sizeof_metadata ENOMEM s alloc m.

End DOVI.

(** ** Enumerators of the Dolby Vision header *)

Module DOVIEnums.

(** The anonymous [enum] of generator flags: [1 << 0], [1 << 1],
    [1 << 2].  A caller combines them with [|] and the generator tests
    each with [&]. *)
Definition FF_DOVI_WRAP_NAL : Z := Z.shiftl 1 0.     (* wrap inside NAL RBSP *)
Definition FF_DOVI_WRAP_T35 : Z := Z.shiftl 1 1.     (* wrap inside T.35+EMDF *)
Definition FF_DOVI_COMPRESS_RPU : Z := Z.shiftl 1 2. (* enable compression *)

(** The internal [enum] of coefficient representations. *)
Definition RPU_COEFF_FIXED : Z := 0.
Definition RPU_COEFF_FLOAT : Z := 1.

End DOVIEnums.

(** ** Concrete hosts, tables and contexts *)

Module Examples.
Import Fn CPU PixblockDSP LLVidEncDSP DOVI.

(** A capability test that reads bit 5 of the flag word, and tables seeded
    with scalar kernels. *)
Definition neon_bit_test (flags : Z) : bool := negb (Z.land flags 32 =? 0).

Definition scalar_pixblock : PixblockDSPContext unit :=
  {| get_pixels := Some (c_kernel 1);
     get_pixels_unaligned := Some (c_kernel 2);
     diff_pixels := Some (c_kernel 3);
     diff_pixels_unaligned := Some (c_kernel 4);
     pix_rest := tt |}.

Definition scalar_llvidenc : LLVidEncDSPContext unit :=
  {| diff_bytes := Some (c_kernel 5); llv_rest := tt |}.

(** A table whose aligned and unaligned slots share one scalar kernel per
    operation. *)
Definition aliased_pixblock : PixblockDSPContext unit :=
  {| get_pixels := Some (c_kernel 1);
     get_pixels_unaligned := Some (c_kernel 1);
     diff_pixels := Some (c_kernel 3);
     diff_pixels_unaligned := Some (c_kernel 3);
     pix_rest := tt |}.

(** A context that reports metadata once a mapping is active. *)
Definition has_mapping (s : DOVIContext unit unit) : bool :=
  bool_decide (is_Some (mapping s)).

(** A populated context: [color] looks into the object [dm] owns and
    [mapping] into the one [vdr[3]] owns; the memory holds the three
    reference-counted objects ([dm]'s is shared with another context) and
    the scratch buffer. *)
Definition populated : DOVIContext unit unit :=
  {| logctx := Some 100%positive;
     enable := 1;
     cfg := tt;
     header := tt;
     mapping := Some 2%positive;
     color := Some 1%positive;
     ext_blocks := Some 3%positive;
     dm := Some 1%positive;
     vdr := vec_store 3 (Some 2%positive) (vreplicate _ None);
     rpu_buf := Some 9%positive;
     rpu_buf_sz := 64 |}.

Definition populated_heap : heap :=
  {| refs := {[ 1%positive := 2%nat; 2%positive := 1%nat;
                3%positive := 1%nat ]};
     bufs := {[ 9%positive := 64 ]} |}.

End Examples.

(* ===================================================================== *)
(** * Part II: properties                                                 *)
(* ===================================================================== *)

(** ** Extension block levels *)

Section ExtensionLevels.
Import DOVI.

Lemma is_static_cases (L : Z) :
  (L ∈ [6; 10; 32; 254; 255] ∧ ff_dovi_rpu_extension_is_static L = 1) ∨
  ((L ∉ [6; 10; 32; 254; 255]) ∧ ff_dovi_rpu_extension_is_static L = 0).
Proof.
  destruct (decide (L = 6)) as [->|]; [left; split; [set_solver|done]|].
  destruct (decide (L = 10)) as [->|]; [left; split; [set_solver|done]|].
  destruct (decide (L = 32)) as [->|]; [left; split; [set_solver|done]|].
  destruct (decide (L = 254)) as [->|]; [left; split; [set_solver|done]|].
  destruct (decide (L = 255)) as [->|]; [left; split; [set_solver|done]|].
  right. split.
  { rewrite !elem_of_cons, elem_of_nil. tauto. }
  destruct L as [|p|p]; try reflexivity.
  do 8 (destruct p as [p|p|]; try reflexivity; try lia).
Qed.

(** C1. For every integer level [L], [ff_dovi_rpu_extension_is_static L]
    is 1 when [L] is one of 6, 10, 32, 254, 255 and 0 for every other
    level; on 5, 6, 10, 11, 32, 33, 253, 254, 255 it gives
    0, 1, 1, 0, 1, 0, 0, 1, 1. *)
Theorem extension_is_static_spec :
  (∀ L : Z,
      ff_dovi_rpu_extension_is_static L
      = if decide (L ∈ [6; 10; 32; 254; 255]) then 1 else 0)
  ∧ (ff_dovi_rpu_extension_is_static
       <$> [5; 6; 10; 11; 32; 33; 253; 254; 255])
    = [0; 1; 1; 0; 1; 0; 0; 1; 1].
Proof.
  split; [|reflexivity].
  intros L.
  destruct (is_static_cases L) as [[Hin ->]|[Hout ->]];
    destruct (decide (L ∈ [6; 10; 32; 254; 255])); done.
Qed.

End ExtensionLevels.

(** ** The aarch64 pixel-block table *)

Section PixblockAarch64.
Import Fn CPU PixblockDSP.

Variable have_neon : Z → bool.
Context {AVCodecContext Rest : Type}.

Implicit Types (h : host) (c : PixblockDSPContext Rest)
  (avctx : AVCodecContext) (high_bit_depth : Z).

(** What the initialiser does with NEON, slot by slot. *)
Lemma pixblock_init_neon h c avctx high_bit_depth :
  have_neon (av_get_cpu_flags h) = true →
  ff_pixblockdsp_init_aarch64 have_neon h c avctx high_bit_depth =
    {| get_pixels :=
         if high_bit_depth =? 0 then Some ff_get_pixels_neon
         else get_pixels c;
       get_pixels_unaligned :=
         if high_bit_depth =? 0 then Some ff_get_pixels_neon
         else get_pixels_unaligned c;
       diff_pixels := Some ff_diff_pixels_neon;
       diff_pixels_unaligned := Some ff_diff_pixels_neon;
       pix_rest := pix_rest c |}.
Proof.
  intros Hneon. unfold ff_pixblockdsp_init_aarch64. rewrite Hneon.
  destruct c. destruct (high_bit_depth =? 0); reflexivity.
Qed.

Lemma pixblock_init_no_neon h c avctx high_bit_depth :
  have_neon (av_get_cpu_flags h) = false →
  ff_pixblockdsp_init_aarch64 have_neon h c avctx high_bit_depth = c.
Proof.
  intros Hneon. unfold ff_pixblockdsp_init_aarch64. by rewrite Hneon.
Qed.

Lemma pixblock_init_idem h c avctx high_bit_depth :
  ff_pixblockdsp_init_aarch64 have_neon h
    (ff_pixblockdsp_init_aarch64 have_neon h c avctx high_bit_depth)
    avctx high_bit_depth
  = ff_pixblockdsp_init_aarch64 have_neon h c avctx high_bit_depth.
Proof.
  destruct (have_neon (av_get_cpu_flags h)) eqn:Hneon.
  - rewrite !pixblock_init_neon by done. simpl.
    destruct (high_bit_depth =? 0); reflexivity.
  - by rewrite !pixblock_init_no_neon.
Qed.

Lemma pixblock_init_keeps_installed h c avctx high_bit_depth :
  let c' := ff_pixblockdsp_init_aarch64 have_neon h c avctx high_bit_depth in
  (is_Some (get_pixels c) → is_Some (get_pixels c'))
  ∧ (is_Some (get_pixels_unaligned c) → is_Some (get_pixels_unaligned c'))
  ∧ (is_Some (diff_pixels c) → is_Some (diff_pixels c'))
  ∧ (is_Some (diff_pixels_unaligned c) →
       is_Some (diff_pixels_unaligned c')).
Proof.
  destruct (have_neon (av_get_cpu_flags h)) eqn:Hneon; simpl.
  - rewrite pixblock_init_neon by done. simpl.
    destruct (high_bit_depth =? 0); eauto 10.
  - rewrite pixblock_init_no_neon by done. eauto.
Qed.

(** A slot the call changed holds a function fixed by the host and by
    [high_bit_depth]: the same call on any other table stores it too. *)
Lemma pixblock_init_same_kernel h c c2 avctx high_bit_depth :
  let c1 := ff_pixblockdsp_init_aarch64 have_neon h c avctx high_bit_depth in
  let c3 := ff_pixblockdsp_init_aarch64 have_neon h c2 avctx high_bit_depth in
  (get_pixels c1 ≠ get_pixels c → get_pixels c3 = get_pixels c1)
  ∧ (get_pixels_unaligned c1 ≠ get_pixels_unaligned c →
       get_pixels_unaligned c3 = get_pixels_unaligned c1)
  ∧ (diff_pixels c1 ≠ diff_pixels c → diff_pixels c3 = diff_pixels c1)
  ∧ (diff_pixels_unaligned c1 ≠ diff_pixels_unaligned c →
       diff_pixels_unaligned c3 = diff_pixels_unaligned c1).
Proof.
  simpl. destruct (have_neon (av_get_cpu_flags h)) eqn:Hneon.
  - rewrite !pixblock_init_neon by done. simpl.
    destruct (high_bit_depth =? 0); split_and!; done.
  - rewrite !pixblock_init_no_neon by done. split_and!; done.
Qed.

(** C2. With the NEON capability set, both [diff_pixels] slots hold
    [ff_diff_pixels_neon] whatever [high_bit_depth] is; both [get_pixels]
    slots hold [ff_get_pixels_neon] when [high_bit_depth] is zero and are
    left as they were when it is not; the aligned and unaligned slot of
    each installed operation hold the same function. *)
Theorem pixblock_init_neon_installs h c avctx high_bit_depth :
  have_neon (av_get_cpu_flags h) = true →
  let c' := ff_pixblockdsp_init_aarch64 have_neon h c avctx high_bit_depth in
  diff_pixels c' = Some ff_diff_pixels_neon
  ∧ diff_pixels_unaligned c' = Some ff_diff_pixels_neon
  ∧ (high_bit_depth = 0 →
       get_pixels c' = Some ff_get_pixels_neon
       ∧ get_pixels_unaligned c' = Some ff_get_pixels_neon)
  ∧ (high_bit_depth ≠ 0 →
       get_pixels c' = get_pixels c
       ∧ get_pixels_unaligned c' = get_pixels_unaligned c)
  ∧ diff_pixels_unaligned c' = diff_pixels c'
  ∧ (high_bit_depth = 0 → get_pixels_unaligned c' = get_pixels c')
  ∧ pix_rest c' = pix_rest c.
Proof.
  intros Hneon c'. subst c'. rewrite pixblock_init_neon by done. simpl.
  split_and!; try done.
  - by intros ->.
  - by intros ->%Z.eqb_neq.
  - by intros ->.
Qed.

End PixblockAarch64.

(** ** The RISC-V lossless video encoder table *)

Section LLVidEncRiscv.
Import Fn CPU LLVidEncDSP.

Variable HAVE_RVV : bool.
Variable AV_CPU_FLAG_RVV_I32 : Z.
Context {Rest : Type}.

Implicit Types (h : host) (d : LLVidEncDSPContext Rest).

Lemma llvidenc_init_rvv h d :
  HAVE_RVV = true →
  Z.land (av_get_cpu_flags h) AV_CPU_FLAG_RVV_I32 ≠ 0 →
  ff_llvidencdsp_init_riscv HAVE_RVV AV_CPU_FLAG_RVV_I32 h d =
    {| diff_bytes := Some ff_llvidenc_diff_bytes_rvv;
       llv_rest := llv_rest d |}.
Proof.
  intros Hcfg Hbit%Z.eqb_neq. unfold ff_llvidencdsp_init_riscv.
  by rewrite Hcfg, Hbit.
Qed.

Lemma llvidenc_init_no_flag h d :
  Z.land (av_get_cpu_flags h) AV_CPU_FLAG_RVV_I32 = 0 →
  ff_llvidencdsp_init_riscv HAVE_RVV AV_CPU_FLAG_RVV_I32 h d = d.
Proof.
  intros Hbit. unfold ff_llvidencdsp_init_riscv. rewrite Hbit.
  by destruct HAVE_RVV.
Qed.

Lemma llvidenc_init_not_built h d :
  HAVE_RVV = false →
  ff_llvidencdsp_init_riscv HAVE_RVV AV_CPU_FLAG_RVV_I32 h d = d.
Proof. intros Hcfg. unfold ff_llvidencdsp_init_riscv. by rewrite Hcfg. Qed.

(** The two outcomes of a call. *)
Lemma llvidenc_init_cases h d :
  ff_llvidencdsp_init_riscv HAVE_RVV AV_CPU_FLAG_RVV_I32 h d = d
  ∨ ff_llvidencdsp_init_riscv HAVE_RVV AV_CPU_FLAG_RVV_I32 h d =
      {| diff_bytes := Some ff_llvidenc_diff_bytes_rvv;
         llv_rest := llv_rest d |}.
Proof.
  destruct (decide (HAVE_RVV = false)) as [Hcfg|Hcfg%not_false_is_true];
    [left; by apply llvidenc_init_not_built|].
  destruct (decide (Z.land (av_get_cpu_flags h) AV_CPU_FLAG_RVV_I32 = 0)).
  - left. by apply llvidenc_init_no_flag.
  - right. by apply llvidenc_init_rvv.
Qed.

Lemma llvidenc_init_idem h d :
  ff_llvidencdsp_init_riscv HAVE_RVV AV_CPU_FLAG_RVV_I32 h
    (ff_llvidencdsp_init_riscv HAVE_RVV AV_CPU_FLAG_RVV_I32 h d)
  = ff_llvidencdsp_init_riscv HAVE_RVV AV_CPU_FLAG_RVV_I32 h d.
Proof.
  destruct (decide (HAVE_RVV = false)) as [Hcfg|Hcfg%not_false_is_true];
    [by rewrite !llvidenc_init_not_built|].
  destruct (decide (Z.land (av_get_cpu_flags h) AV_CPU_FLAG_RVV_I32 = 0)).
  - by rewrite !llvidenc_init_no_flag.
  - by rewrite !llvidenc_init_rvv.
Qed.

Lemma llvidenc_init_keeps_installed h d :
  is_Some (diff_bytes d) →
  is_Some (diff_bytes
             (ff_llvidencdsp_init_riscv HAVE_RVV AV_CPU_FLAG_RVV_I32 h d)).
Proof.
  intros Hd. destruct (llvidenc_init_cases h d) as [->| ->]; eauto.
Qed.

Lemma llvidenc_init_same_kernel h d d2 :
  diff_bytes (ff_llvidencdsp_init_riscv HAVE_RVV AV_CPU_FLAG_RVV_I32 h d)
    ≠ diff_bytes d →
  diff_bytes (ff_llvidencdsp_init_riscv HAVE_RVV AV_CPU_FLAG_RVV_I32 h d2)
  = diff_bytes (ff_llvidencdsp_init_riscv HAVE_RVV AV_CPU_FLAG_RVV_I32 h d).
Proof.
  intros Hchanged.
  destruct (decide (HAVE_RVV = false)) as [Hcfg|Hcfg%not_false_is_true].
  { by rewrite llvidenc_init_not_built in Hchanged. }
  destruct (decide (Z.land (av_get_cpu_flags h) AV_CPU_FLAG_RVV_I32 = 0))
    as [Hbit|Hbit].
  { by rewrite llvidenc_init_no_flag in Hchanged. }
  by rewrite !llvidenc_init_rvv.
Qed.

End LLVidEncRiscv.

(** ** Both initialisers together *)

Section Dispatch.
Import Fn CPU PixblockDSP LLVidEncDSP.

Variable have_neon : Z → bool.
Variable HAVE_RVV : bool.
Variable AV_CPU_FLAG_RVV_I32 : Z.
Context {AVCodecContext RestP RestL : Type}.

Implicit Types (h : host) (c : PixblockDSPContext RestP)
  (d : LLVidEncDSPContext RestL) (avctx : AVCodecContext)
  (high_bit_depth : Z).

(** C3. Without the capability it asks for (NEON on aarch64, the RVV_I32
    bit on RISC-V) an initialiser returns the table slot for slot as it
    got it.  Both initialisers are total functions with no error result,
    and whatever the capabilities a slot that held a kernel still holds
    one afterwards. *)
Theorem init_without_capability_is_identity h c d avctx high_bit_depth :
  (have_neon (av_get_cpu_flags h) = false →
     ff_pixblockdsp_init_aarch64 have_neon h c avctx high_bit_depth = c)
  ∧ (Z.land (av_get_cpu_flags h) AV_CPU_FLAG_RVV_I32 = 0 →
       ff_llvidencdsp_init_riscv HAVE_RVV AV_CPU_FLAG_RVV_I32 h d = d)
  ∧ (let c' :=
       ff_pixblockdsp_init_aarch64 have_neon h c avctx high_bit_depth in
     (is_Some (get_pixels c) → is_Some (get_pixels c'))
     ∧ (is_Some (get_pixels_unaligned c) → is_Some (get_pixels_unaligned c'))
     ∧ (is_Some (diff_pixels c) → is_Some (diff_pixels c'))
     ∧ (is_Some (diff_pixels_unaligned c) →
          is_Some (diff_pixels_unaligned c')))
  ∧ (is_Some (diff_bytes d) →
       is_Some (diff_bytes
         (ff_llvidencdsp_init_riscv HAVE_RVV AV_CPU_FLAG_RVV_I32 h d))).
Proof.
  split_and!.
  - apply pixblock_init_no_neon.
  - apply llvidenc_init_no_flag.
  - apply pixblock_init_keeps_installed.
  - apply llvidenc_init_keeps_installed.
Qed.

(** C4. Each initialiser is idempotent for a fixed host (and a fixed
    [high_bit_depth]): a second call returns the table of the first.  A
    slot the first call changed holds a function that depends on the host
    and on [high_bit_depth] only, so every later call with the same ones,
    on whatever table, installs that same function. *)
Theorem init_idempotent h c d avctx high_bit_depth :
  ff_pixblockdsp_init_aarch64 have_neon h
    (ff_pixblockdsp_init_aarch64 have_neon h c avctx high_bit_depth)
    avctx high_bit_depth
  = ff_pixblockdsp_init_aarch64 have_neon h c avctx high_bit_depth
  ∧ ff_llvidencdsp_init_riscv HAVE_RVV AV_CPU_FLAG_RVV_I32 h
      (ff_llvidencdsp_init_riscv HAVE_RVV AV_CPU_FLAG_RVV_I32 h d)
    = ff_llvidencdsp_init_riscv HAVE_RVV AV_CPU_FLAG_RVV_I32 h d
  ∧ (∀ c2,
       let c1 :=
         ff_pixblockdsp_init_aarch64 have_neon h c avctx high_bit_depth in
       let c3 :=
         ff_pixblockdsp_init_aarch64 have_neon h c2 avctx high_bit_depth in
       (get_pixels c1 ≠ get_pixels c → get_pixels c3 = get_pixels c1)
       ∧ (get_pixels_unaligned c1 ≠ get_pixels_unaligned c →
            get_pixels_unaligned c3 = get_pixels_unaligned c1)
       ∧ (diff_pixels c1 ≠ diff_pixels c → diff_pixels c3 = diff_pixels c1)
       ∧ (diff_pixels_unaligned c1 ≠ diff_pixels_unaligned c →
            diff_pixels_unaligned c3 = diff_pixels_unaligned c1))
  ∧ (∀ d2,
       diff_bytes (ff_llvidencdsp_init_riscv HAVE_RVV AV_CPU_FLAG_RVV_I32 h d)
         ≠ diff_bytes d →
       diff_bytes (ff_llvidencdsp_init_riscv HAVE_RVV AV_CPU_FLAG_RVV_I32 h d2)
       = diff_bytes
           (ff_llvidencdsp_init_riscv HAVE_RVV AV_CPU_FLAG_RVV_I32 h d)).
Proof.
  split_and!.
  - apply pixblock_init_idem.
  - apply llvidenc_init_idem.
  - intros c2. apply pixblock_init_same_kernel.
  - intros d2. apply llvidenc_init_same_kernel.
Qed.

(** C5, as amended.  Whatever the CPU flags and whether or not RVV support
    is built in, [ff_llvidencdsp_init_riscv] leaves every field other than
    [diff_bytes] as it was, and [diff_bytes] either as it was or set to
    [ff_llvidenc_diff_bytes_rvv].  It is set when RVV support is built in
    and the RVV_I32 bit is present; a build without RVV support returns
    the table unchanged. *)
Theorem llvidenc_init_frame h d :
  llv_rest (ff_llvidencdsp_init_riscv HAVE_RVV AV_CPU_FLAG_RVV_I32 h d)
  = llv_rest d
  ∧ (diff_bytes (ff_llvidencdsp_init_riscv HAVE_RVV AV_CPU_FLAG_RVV_I32 h d)
     = diff_bytes d
     ∨ diff_bytes (ff_llvidencdsp_init_riscv HAVE_RVV AV_CPU_FLAG_RVV_I32 h d)
       = Some ff_llvidenc_diff_bytes_rvv)
  ∧ (HAVE_RVV = true →
     Z.land (av_get_cpu_flags h) AV_CPU_FLAG_RVV_I32 ≠ 0 →
     diff_bytes (ff_llvidencdsp_init_riscv HAVE_RVV AV_CPU_FLAG_RVV_I32 h d)
     = Some ff_llvidenc_diff_bytes_rvv)
  ∧ (HAVE_RVV = false →
     ff_llvidencdsp_init_riscv HAVE_RVV AV_CPU_FLAG_RVV_I32 h d = d).
Proof.
  split_and!.
  - by destruct (llvidenc_init_cases HAVE_RVV AV_CPU_FLAG_RVV_I32 h d)
      as [->| ->].
  - destruct (llvidenc_init_cases HAVE_RVV AV_CPU_FLAG_RVV_I32 h d)
      as [->| ->]; auto.
  - intros Hcfg Hbit. by rewrite llvidenc_init_rvv.
  - apply llvidenc_init_not_built.
Qed.

End Dispatch.

(** *** The dispatch properties on concrete hosts and tables *)

Section DispatchExamples.
Import Fn CPU PixblockDSP LLVidEncDSP Examples.

Lemma pixblock_init_neon_installs_witness :
  neon_bit_test 32 = true
  ∧ ff_pixblockdsp_init_aarch64 neon_bit_test
      {| av_get_cpu_flags := 32 |} scalar_pixblock tt 0
    = {| get_pixels := Some ff_get_pixels_neon;
         get_pixels_unaligned := Some ff_get_pixels_neon;
         diff_pixels := Some ff_diff_pixels_neon;
         diff_pixels_unaligned := Some ff_diff_pixels_neon;
         pix_rest := tt |}
  ∧ get_pixels (ff_pixblockdsp_init_aarch64 neon_bit_test
      {| av_get_cpu_flags := 32 |} scalar_pixblock tt 1) = Some (c_kernel 1).
Proof.
  split; [reflexivity|]. split.
  - destruct (pixblock_init_neon_installs neon_bit_test
                {| av_get_cpu_flags := 32 |} scalar_pixblock tt 0 eq_refl)
      as (Hd & Hdu & Hg & _ & _ & _ & Hr).
    destruct (Hg eq_refl) as [Hg1 Hg2].
    destruct (ff_pixblockdsp_init_aarch64 _ _ _ _ _) as [g gu dp du r].
    simpl in *. destruct r. congruence.
  - destruct (pixblock_init_neon_installs neon_bit_test
                {| av_get_cpu_flags := 32 |} scalar_pixblock tt 1 eq_refl)
      as (_ & _ & _ & Hg & _).
    destruct Hg as [Hg _]; [lia|]. exact Hg.
Defined.

Lemma init_without_capability_is_identity_witness :
  neon_bit_test 0 = false
  ∧ Z.land 0 8 = 0
  ∧ ff_pixblockdsp_init_aarch64 neon_bit_test
      {| av_get_cpu_flags := 0 |} scalar_pixblock tt 0 = scalar_pixblock
  ∧ ff_llvidencdsp_init_riscv true 8
      {| av_get_cpu_flags := 0 |} scalar_llvidenc = scalar_llvidenc
  ∧ is_Some (diff_bytes (ff_llvidencdsp_init_riscv true 8
      {| av_get_cpu_flags := 0 |} scalar_llvidenc)).
Proof.
  destruct (init_without_capability_is_identity neon_bit_test true 8
              {| av_get_cpu_flags := 0 |} scalar_pixblock scalar_llvidenc
              tt 0) as (Ha & Hr & _ & Hk).
  split_and!; [reflexivity|reflexivity|..].
  - apply Ha. reflexivity.
  - apply Hr. reflexivity.
  - apply Hk. simpl. eauto.
Defined.

Lemma init_idempotent_witness :
  get_pixels (ff_pixblockdsp_init_aarch64 neon_bit_test
      {| av_get_cpu_flags := 32 |} scalar_pixblock tt 0)
    ≠ get_pixels scalar_pixblock
  ∧ get_pixels (ff_pixblockdsp_init_aarch64 neon_bit_test
      {| av_get_cpu_flags := 32 |}
      (ff_pixblockdsp_init_aarch64 neon_bit_test
         {| av_get_cpu_flags := 32 |} scalar_pixblock tt 0) tt 0)
    = get_pixels (ff_pixblockdsp_init_aarch64 neon_bit_test
        {| av_get_cpu_flags := 32 |} scalar_pixblock tt 0)
  ∧ diff_bytes (ff_llvidencdsp_init_riscv true 8 {| av_get_cpu_flags := 8 |}
      (ff_llvidencdsp_init_riscv true 8 {| av_get_cpu_flags := 8 |}
         scalar_llvidenc))
    = diff_bytes (ff_llvidencdsp_init_riscv true 8
        {| av_get_cpu_flags := 8 |} scalar_llvidenc).
Proof.
  split; [discriminate|].
  split.
  - destruct (init_idempotent neon_bit_test true 8
                {| av_get_cpu_flags := 32 |} scalar_pixblock scalar_llvidenc
                tt 0) as (_ & _ & Hsame & _).
    destruct (Hsame (ff_pixblockdsp_init_aarch64 neon_bit_test
                {| av_get_cpu_flags := 32 |} scalar_pixblock tt 0))
      as (Hg & _).
    apply Hg. discriminate.
  - destruct (init_idempotent neon_bit_test true 8
                {| av_get_cpu_flags := 8 |} scalar_pixblock scalar_llvidenc
                tt 0) as (_ & _ & _ & Hsame).
    apply Hsame. discriminate.
Defined.

(** C5 as first worded fails on a build without RVV support: the
    host reports the RVV_I32 bit, and [diff_bytes] keeps the scalar
    kernel. *)
Lemma llvidenc_init_rvv_bit_not_built :
  Z.land (av_get_cpu_flags {| av_get_cpu_flags := 8 |}) 8 ≠ 0
  ∧ diff_bytes (ff_llvidencdsp_init_riscv false 8
      {| av_get_cpu_flags := 8 |} scalar_llvidenc)
    ≠ Some ff_llvidenc_diff_bytes_rvv.
Proof. split; discriminate. Qed.

Lemma llvidenc_init_frame_witness :
  true = true
  ∧ Z.land 8 8 ≠ 0
  ∧ diff_bytes (ff_llvidencdsp_init_riscv true 8
      {| av_get_cpu_flags := 8 |} scalar_llvidenc)
    = Some ff_llvidenc_diff_bytes_rvv
  ∧ ff_llvidencdsp_init_riscv false 8
      {| av_get_cpu_flags := 8 |} scalar_llvidenc = scalar_llvidenc.
Proof.
  split; [reflexivity|]. split; [discriminate|]. split.
  - destruct (llvidenc_init_frame true 8 {| av_get_cpu_flags := 8 |}
                scalar_llvidenc) as (_ & _ & Hset & _).
    apply Hset; [reflexivity|discriminate].
  - destruct (llvidenc_init_frame false 8 {| av_get_cpu_flags := 8 |}
                scalar_llvidenc) as (_ & _ & _ & Hoff).
    apply Hoff. reflexivity.
Defined.

End DispatchExamples.

(** ** Arrays and the reference-counted memory *)

Section Arrays.
Import DOVI.
Context {A : Type}.

Lemma vec_to_list_store {n : nat} (i : nat) (x : A) (a : vec A n) :
  vec_to_list (vec_store i x a) = <[i := x]> (vec_to_list a).
Proof.
  revert i. induction a as [|y n a IH]; intros i; [done|].
  destruct i as [|i]; simpl; [done|]. by rewrite IH.
Qed.

Lemma array_elems {n : nat} (a : vec A n) : FF_ARRAY_ELEMS a = Z.of_nat n.
Proof. unfold FF_ARRAY_ELEMS. by rewrite length_vec_to_list. Qed.

(** Storing at the first free entry extends the occupied prefix. *)
Lemma take_store_next {n : nat} (k : nat) (x : A) (a : vec A n) :
  (k < n)%nat →
  take (S k) (vec_to_list (vec_store k x a))
  = take k (vec_to_list a) ++ [x].
Proof.
  intros Hk. rewrite vec_to_list_store.
  rewrite (take_S_r _ _ x).
  - by rewrite take_insert_ge by lia.
  - apply list_lookup_insert_eq. by rewrite length_vec_to_list.
Qed.

End Arrays.

Section Memory.
Import DOVI.

Lemma release_nulls (l : list (option positive)) (m : heap) :
  Forall (λ p, p = None) l →
  foldl (λ m p, ff_refstruct_unref p m) m l = m.
Proof.
  intros Hl. revert m. induction Hl as [|p l -> _ IH]; intros m; [done|].
  simpl. apply IH.
Qed.

Lemma ff_refstruct_unref_bufs p m : bufs (ff_refstruct_unref p m) = bufs m.
Proof.
  destruct p as [a|]; [|done]. simpl.
  destruct (refs m !! a) as [[|[|k]]|]; done.
Qed.

Lemma release_all_bufs (l : list (option positive)) (m : heap) :
  bufs (foldl (λ m p, ff_refstruct_unref p m) m l) = bufs m.
Proof.
  revert m. induction l as [|p l IH]; intros m; [done|].
  simpl. by rewrite IH, ff_refstruct_unref_bufs.
Qed.

End Memory.

(** ** Extension block sets and the slot table *)

Section ExtensionSets.
Import DOVI.
Context {AVDOVIDecoderConfigurationRecord AVDOVIRpuDataHeader : Type}.
Context {AVDOVIDmData : Type}.
Variable dm_zero : AVDOVIDmData.
Variable dm_level : AVDOVIDmData → Z.

Implicit Types (e : DOVIExt AVDOVIDmData) (b : AVDOVIDmData)
  (bs : list AVDOVIDmData)
  (s : DOVIContext AVDOVIDecoderConfigurationRecord AVDOVIRpuDataHeader).

(** One stored block: the counts stay within the arrays and the block is
    appended to the half its level selects. *)
Lemma ext_store_block_inv e b e' :
  ext_store_block dm_level e b = Some e' →
  0 ≤ num_static e ≤ 7 → 0 ≤ num_dynamic e ≤ 25 →
  (0 ≤ num_static e' ≤ 7 ∧ 0 ≤ num_dynamic e' ≤ 25)
  ∧ ext_static_blocks e'
    = ext_static_blocks e
      ++ filter (λ b, ff_dovi_rpu_extension_is_static (dm_level b) ≠ 0) [b]
  ∧ ext_dynamic_blocks e'
    = ext_dynamic_blocks e
      ++ filter (λ b, ff_dovi_rpu_extension_is_static (dm_level b) = 0) [b].
Proof.
  unfold ext_store_block, ext_static_blocks, ext_dynamic_blocks.
  rewrite !array_elems. intros Hstore Hs Hd.
  destruct (ff_dovi_rpu_extension_is_static (dm_level b) =? 0) eqn:Hlvl;
    simpl in Hstore.
  - apply Z.eqb_eq in Hlvl.
    destruct (num_dynamic e <? Z.of_nat 25) eqn:Hroom; [|done].
    apply Z.ltb_lt in Hroom. injection Hstore as <-. simpl.
    rewrite filter_cons_False, filter_nil by (intros Hb; by apply Hb).
    rewrite filter_cons_True, filter_nil by done.
    rewrite app_nil_r. split_and!; try lia; [done|].
    replace (Z.to_nat (num_dynamic e + 1)) with (S (Z.to_nat (num_dynamic e)))
      by lia.
    apply take_store_next. lia.
  - apply Z.eqb_neq in Hlvl.
    destruct (num_static e <? Z.of_nat 7) eqn:Hroom; [|done].
    apply Z.ltb_lt in Hroom. injection Hstore as <-. simpl.
    rewrite filter_cons_True, filter_nil by done.
    rewrite filter_cons_False, filter_nil by done.
    rewrite app_nil_r. split_and!; try lia; [|done].
    replace (Z.to_nat (num_static e + 1)) with (S (Z.to_nat (num_static e)))
      by lia.
    apply take_store_next. lia.
Qed.

Lemma ext_store_blocks_inv bs : ∀ e e',
  ext_store_blocks dm_level bs e = Some e' →
  0 ≤ num_static e ≤ 7 → 0 ≤ num_dynamic e ≤ 25 →
  (0 ≤ num_static e' ≤ 7 ∧ 0 ≤ num_dynamic e' ≤ 25)
  ∧ ext_static_blocks e'
    = ext_static_blocks e
      ++ filter (λ b, ff_dovi_rpu_extension_is_static (dm_level b) ≠ 0) bs
  ∧ ext_dynamic_blocks e'
    = ext_dynamic_blocks e
      ++ filter (λ b, ff_dovi_rpu_extension_is_static (dm_level b) = 0) bs.
Proof.
  induction bs as [|b bs IH]; intros e e' Hrun Hs Hd; simpl in Hrun.
  - injection Hrun as <-. rewrite !filter_nil, !app_nil_r. done.
  - destruct (ext_store_block dm_level e b) as [e1|] eqn:Hstep; [|done].
    destruct (ext_store_block_inv _ _ _ Hstep Hs Hd)
      as ([Hs1 Hd1] & Hst1 & Hdy1).
    destruct (IH _ _ Hrun Hs1 Hd1) as (Hbounds & Hst & Hdy).
    split; [done|].
    rewrite Hst, Hdy, Hst1, Hdy1, <- !app_assoc, <- !filter_app. done.
Qed.

Lemma vdr_index_Some dm_id i :
  vdr_index dm_id = Some i ↔ 0 ≤ dm_id ≤ 15 ∧ i = Z.to_nat dm_id.
Proof.
  unfold vdr_index, DOVI_MAX_DM_ID.
  destruct (0 <=? dm_id) eqn:Hlo, (dm_id <=? 15) eqn:Hhi; simpl;
    rewrite ?Z.leb_le, ?Z.leb_gt in *; split;
    try (intros [= <-]); try (intros [? ->]); try done; lia.
Qed.

(** C6. Every extension block set built by storing the blocks of an RPU
    into a fresh set has [num_static ≤ 7] and [num_dynamic ≤ 25], the
    declared sizes of [dm_static] and [dm_dynamic], and holds the static
    and the dynamic blocks in arrival order.  A DM id that selects a slot
    of [vdr] lies in [0, 15]: [DOVI_MAX_DM_ID] is 15 and the table has 16
    entries, so the slot exists. *)
Theorem ext_counts_and_dm_id_within_capacity bs e s dm_id i :
  (ext_store_blocks dm_level bs (DOVIExt_zero dm_zero) = Some e →
     0 ≤ num_static e ≤ 7
     ∧ 0 ≤ num_dynamic e ≤ 25
     ∧ FF_ARRAY_ELEMS (dm_static e) = 7
     ∧ FF_ARRAY_ELEMS (dm_dynamic e) = 25
     ∧ ext_static_blocks e
       = filter (λ b, ff_dovi_rpu_extension_is_static (dm_level b) ≠ 0) bs
     ∧ ext_dynamic_blocks e
       = filter (λ b, ff_dovi_rpu_extension_is_static (dm_level b) = 0) bs)
  ∧ (vdr_index dm_id = Some i →
       0 ≤ dm_id ≤ 15
       ∧ Z.of_nat i = dm_id
       ∧ Z.of_nat i < FF_ARRAY_ELEMS (vdr s)
       ∧ is_Some (vdr_get s dm_id))
  ∧ DOVI_MAX_DM_ID = 15
  ∧ FF_ARRAY_ELEMS (vdr s) = 16.
Proof.
  split_and!.
  - intros Hrun.
    destruct (ext_store_blocks_inv _ _ _ Hrun) as ([Hs Hd] & Hst & Hdy);
      [simpl; lia..|].
    rewrite !array_elems. split_and!; first [done|lia].
  - intros Hidx. pose proof Hidx as [Hrange ->]%vdr_index_Some.
    rewrite array_elems. unfold DOVI_MAX_DM_ID. simpl.
    split_and!; try lia.
    unfold vdr_get. rewrite Hidx. apply lookup_lt_is_Some.
    rewrite length_vec_to_list. unfold DOVI_MAX_DM_ID. lia.
  - reflexivity.
  - by rewrite array_elems.
Qed.

End ExtensionSets.

(** ** Life cycle of a context *)

Section Lifecycle.
Import DOVI.
Context {AVDOVIDecoderConfigurationRecord AVDOVIRpuDataHeader : Type}.
Variable cfg_zero : AVDOVIDecoderConfigurationRecord.
Variable header_zero : AVDOVIRpuDataHeader.

Implicit Types
  (s : DOVIContext AVDOVIDecoderConfigurationRecord AVDOVIRpuDataHeader)
  (m : heap).

(** A context without references holds nothing to release. *)
Lemma release_slots_only_logctx l m :
  release_slots (DOVIContext_only_logctx cfg_zero header_zero l) m = m.
Proof.
  unfold release_slots, DOVIContext_only_logctx.
  cbn [dm vdr ext_blocks ff_refstruct_unref].
  apply release_nulls.
  rewrite vec_to_list_replicate. by apply Forall_replicate.
Qed.

Lemma release_slots_bufs s m : bufs (release_slots s m) = bufs m.
Proof.
  unfold release_slots.
  by rewrite !ff_refstruct_unref_bufs, release_all_bufs,
    ff_refstruct_unref_bufs.
Qed.

Lemma ctx_unref_only_logctx l m :
  ff_dovi_ctx_unref cfg_zero header_zero
    (DOVIContext_only_logctx cfg_zero header_zero l) m
  = (DOVIContext_only_logctx cfg_zero header_zero l, m).
Proof.
  unfold ff_dovi_ctx_unref. by rewrite release_slots_only_logctx.
Qed.

(** C7. After [ff_dovi_ctx_unref] every field of the context but [logctx]
    is zero, [logctx] is kept, and a second call changes neither the
    context nor the memory; on zeroed storage that was never populated
    the first call already changes nothing. *)
Theorem ctx_unref_zeroes_and_idempotent s m :
  let r := ff_dovi_ctx_unref cfg_zero header_zero s m in
  logctx r.1 = logctx s
  ∧ enable r.1 = 0
  ∧ cfg r.1 = cfg_zero
  ∧ header r.1 = header_zero
  ∧ mapping r.1 = None
  ∧ color r.1 = None
  ∧ ext_blocks r.1 = None
  ∧ dm r.1 = None
  ∧ (∀ i, vdr r.1 !!! i = None)
  ∧ rpu_buf r.1 = None
  ∧ rpu_buf_sz r.1 = 0
  ∧ ff_dovi_ctx_unref cfg_zero header_zero r.1 r.2 = r
  ∧ ff_dovi_ctx_unref cfg_zero header_zero
      (DOVIContext_zero cfg_zero header_zero) m
    = (DOVIContext_zero cfg_zero header_zero, m).
Proof.
  cbv zeta.
  split_and!;
    [reflexivity..
    |intros i; exact (vlookup_replicate _ None i)
    |reflexivity
    |reflexivity
    |apply ctx_unref_only_logctx
    |apply ctx_unref_only_logctx].
Qed.

(** C8. [ff_dovi_ctx_flush] keeps [cfg], [enable] and [logctx], clears
    [header], [mapping], [color], [ext_blocks] and every [vdr[i]], and
    leaves the scratch buffer with at least the capacity it had: the
    buffer and its size are kept and the block stays allocated. *)
Theorem ctx_flush_frame s m :
  let r := ff_dovi_ctx_flush header_zero s m in
  cfg r.1 = cfg s
  ∧ enable r.1 = enable s
  ∧ logctx r.1 = logctx s
  ∧ header r.1 = header_zero
  ∧ mapping r.1 = None
  ∧ color r.1 = None
  ∧ ext_blocks r.1 = None
  ∧ (∀ i, vdr r.1 !!! i = None)
  ∧ rpu_buf_sz s ≤ rpu_buf_sz r.1
  ∧ rpu_buf r.1 = rpu_buf s
  ∧ bufs r.2 = bufs m.
Proof.
  cbv zeta.
  split_and!;
    [reflexivity..
    |intros i; exact (vlookup_replicate _ None i)
    |reflexivity
    |reflexivity
    |apply release_slots_bufs].
Qed.

(** C9. [ff_dovi_get_metadata] ends in one of three ways.  With metadata
    available and memory for the record it returns a positive value, the
    byte size of the block it allocated, and stores the block's address in
    [*out]: the block is live with that size and belongs to the caller,
    for when the allocator answered with an address that was not in use
    every block that was live before is still live with its size, and no
    reference count has moved.  With no metadata available it returns 0.
    When the allocation fails it returns the negative status of the error
    number.  The two last leave [*out] and the memory alone. *)
Theorem get_metadata_result (metadata_available : _ → bool)
    (sizeof_metadata ENOMEM : positive) s (alloc : option positive) m :
  let r := ff_dovi_get_metadata metadata_available sizeof_metadata
             ENOMEM s alloc m in
  ((metadata_available s = true
    ∧ 0 < r.1.1
    ∧ r.1.1 = Z.pos sizeof_metadata
    ∧ ∃ a, alloc = Some a ∧ r.1.2 = Some a ∧ bufs r.2 !! a = Some r.1.1)
   ∨ (metadata_available s = false
      ∧ r.1.1 = 0 ∧ r.1.2 = None ∧ r.2 = m)
   ∨ (metadata_available s = true ∧ alloc = None
      ∧ r.1.1 < 0 ∧ r.1.1 = AVERROR ENOMEM ∧ r.1.2 = None ∧ r.2 = m))
  ∧ refs r.2 = refs m
  ∧ (∀ a, alloc = Some a → bufs m !! a = None →
     ∀ b size, bufs m !! b = Some size → bufs r.2 !! b = Some size).
Proof.
  cbv zeta. unfold ff_dovi_get_metadata, AVERROR.
  destruct (metadata_available s); simpl.
  - destruct alloc as [a|]; simpl.
    + split_and!.
      * left. split_and!; [done..|].
        exists a. split_and!; [done..|]. apply lookup_insert_eq.
      * done.
      * intros a' [= <-] Hfresh b size Hb.
        rewrite lookup_insert_ne; [done|]. intros ->. congruence.
    + split_and!; [|done|done].
      right. right. split_and!; first [done|lia].
  - split_and!; [|done|done]. right. left. done.
Qed.

End Lifecycle.

Section LifecycleExamples.
Import DOVI Examples.

Lemma ext_counts_and_dm_id_within_capacity_witness :
  ∃ e,
    ext_store_blocks (λ level, level) [6; 1; 255; 2] (DOVIExt_zero 0)
    = Some e
    ∧ num_static e = 2
    ∧ num_static e ≤ 7
    ∧ num_dynamic e ≤ 25
    ∧ ext_static_blocks e = [6; 255]
    ∧ ext_dynamic_blocks e = [1; 2]
    ∧ vdr_index 15 = Some 15%nat
    ∧ is_Some (vdr_get (DOVIContext_zero tt tt) 15).
Proof.
  eexists. split; [reflexivity|]. split; [reflexivity|].
  match goal with
  | |- num_static ?e ≤ _ ∧ _ =>
      destruct (ext_counts_and_dm_id_within_capacity 0 (λ level, level)
                  [6; 1; 255; 2] e (DOVIContext_zero tt tt) 15 15%nat)
        as (Hext & Hidx & _)
  end.
  destruct Hext as (Hs & Hd & _ & _ & Hst & Hdy); [reflexivity|].
  destruct Hidx as (_ & _ & _ & Hslot); [reflexivity|].
  split_and!;
    [apply Hs|apply Hd|exact Hst|exact Hdy|reflexivity|exact Hslot].
Defined.

(** Eight static blocks do not fit, seven static and twenty-five dynamic
    ones do, twenty-six dynamic ones do not. *)
Example ext_store_blocks_capacity :
  ext_store_blocks (λ level, level) (replicate 8 6) (DOVIExt_zero 0) = None
  ∧ is_Some (ext_store_blocks (λ level, level)
               (replicate 7 6 ++ replicate 25 1) (DOVIExt_zero 0))
  ∧ ext_store_blocks (λ level, level) (replicate 26 1) (DOVIExt_zero 0)
    = None.
Proof. split_and!; [reflexivity|vm_compute; eauto|reflexivity]. Qed.

(** Unref drops one reference of each object and frees the buffer: the
    shared object survives with one reference left. *)
Example ctx_unref_releases :
  let r := ff_dovi_ctx_unref tt tt populated populated_heap in
  r.1 = DOVIContext_only_logctx tt tt (Some 100%positive)
  ∧ refs r.2 = {[ 1%positive := 1%nat ]}
  ∧ bufs r.2 = ∅.
Proof. vm_compute. split_and!; reflexivity. Qed.

(** Flush drops the same references and keeps the buffer. *)
Example ctx_flush_keeps_buffer :
  let r := ff_dovi_ctx_flush tt populated populated_heap in
  enable r.1 = 1
  ∧ rpu_buf r.1 = Some 9%positive
  ∧ rpu_buf_sz r.1 = 64
  ∧ refs r.2 = {[ 1%positive := 1%nat ]}
  ∧ bufs r.2 = {[ 9%positive := 64 ]}.
Proof. vm_compute. split_and!; reflexivity. Qed.

Lemma get_metadata_result_witness :
  bufs populated_heap !! 7%positive = None
  ∧ ff_dovi_get_metadata has_mapping 4096 12 populated (Some 7%positive)
      populated_heap
    = (4096, Some 7%positive,
       {| refs := refs populated_heap;
          bufs := <[7%positive := 4096]> (bufs populated_heap) |})
  ∧ 0 < (ff_dovi_get_metadata has_mapping 4096 12 populated
           (Some 7%positive) populated_heap).1.1
  ∧ bufs (ff_dovi_get_metadata has_mapping 4096 12 populated
            (Some 7%positive) populated_heap).2 !! 9%positive = Some 64
  ∧ (ff_dovi_get_metadata has_mapping 4096 12 populated None
       populated_heap).1.1 = -12
  ∧ (ff_dovi_get_metadata has_mapping 4096 12 populated None
       populated_heap).1.1 < 0
  ∧ (ff_dovi_get_metadata has_mapping 4096 12 (DOVIContext_zero tt tt)
       (Some 7%positive) populated_heap).1.1 = 0.
Proof.
  split; [by vm_compute|]. split; [reflexivity|].
  destruct (get_metadata_result has_mapping 4096 12 populated
              (Some 7%positive) populated_heap)
    as [[(_ & Hpos & _)|[(Hav & _)|(_ & Hal & _)]] (_ & Hkeep)];
    [|discriminate Hav|discriminate Hal].
  split; [exact Hpos|].
  split.
  { apply (Hkeep 7%positive eq_refl); by vm_compute. }
  destruct (get_metadata_result has_mapping 4096 12 populated
              None populated_heap)
    as [[(_ & _ & _ & a & Hal & _)|[(Hav & _)|(_ & _ & Hneg & Hcode & _)]] _];
    [discriminate Hal|discriminate Hav|].
  split; [exact Hcode|]. split; [exact Hneg|].
  destruct (get_metadata_result has_mapping 4096 12 (DOVIContext_zero tt tt)
              (Some 7%positive) populated_heap)
    as [[(Hav & _)|[(_ & Hret & _)|(Hav & _)]] _];
    [discriminate Hav|exact Hret|discriminate Hav].
Defined.

End LifecycleExamples.

(* ===================================================================== *)
(** * Part III: further properties of the two initialisers, the level
      classifier and the flag enumerators                                 *)
(* ===================================================================== *)

(** ** Laws of the aarch64 initialiser *)

Section PixblockLaws.
Import Fn CPU PixblockDSP.

Variable have_neon : Z → bool.
Context {AVCodecContext Rest : Type}.

Implicit Types (h : host) (c : PixblockDSPContext Rest)
  (avctx : AVCodecContext) (high_bit_depth : Z).

(** X1. Two calls of [ff_pixblockdsp_init_aarch64] commute, whatever the
    two hosts, codec contexts and bit depths: the table after both does
    not depend on the order. *)
Theorem pixblock_init_commutes h1 h2 c avctx1 avctx2 depth1 depth2 :
  ff_pixblockdsp_init_aarch64 have_neon h1
    (ff_pixblockdsp_init_aarch64 have_neon h2 c avctx2 depth2) avctx1 depth1
  = ff_pixblockdsp_init_aarch64 have_neon h2
      (ff_pixblockdsp_init_aarch64 have_neon h1 c avctx1 depth1)
      avctx2 depth2.
Proof.
  destruct (have_neon (av_get_cpu_flags h1)) eqn:Hneon1,
           (have_neon (av_get_cpu_flags h2)) eqn:Hneon2;
    rewrite ?(pixblock_init_neon _ h1), ?(pixblock_init_neon _ h2),
      ?(pixblock_init_no_neon _ h1), ?(pixblock_init_no_neon _ h2) by done;
    rewrite ?(pixblock_init_neon _ h1), ?(pixblock_init_neon _ h2),
      ?(pixblock_init_no_neon _ h1), ?(pixblock_init_no_neon _ h2) by done;
    try reflexivity.
  simpl. destruct (depth1 =? 0), (depth2 =? 0); reflexivity.
Qed.

(** X2. On one host the call with [high_bit_depth = 0] absorbs a call
    with any other depth: made after it or before it, the table is the
    one the 8-bit call alone gives. *)
Theorem pixblock_init_low_depth_absorbs h c avctx avctx' high_bit_depth :
  ff_pixblockdsp_init_aarch64 have_neon h
    (ff_pixblockdsp_init_aarch64 have_neon h c avctx high_bit_depth) avctx' 0
  = ff_pixblockdsp_init_aarch64 have_neon h c avctx 0
  ∧ ff_pixblockdsp_init_aarch64 have_neon h
      (ff_pixblockdsp_init_aarch64 have_neon h c avctx 0)
      avctx' high_bit_depth
    = ff_pixblockdsp_init_aarch64 have_neon h c avctx 0.
Proof.
  destruct (have_neon (av_get_cpu_flags h)) eqn:Hneon.
  - rewrite !pixblock_init_neon by done. simpl.
    destruct (high_bit_depth =? 0); split; reflexivity.
  - rewrite !pixblock_init_no_neon by done. done.
Qed.

(** X3. The initialiser keeps aliasing: an operation whose aligned and
    unaligned slot held the same function before the call holds the same
    function in both after it, on every host and for every depth. *)
Theorem pixblock_init_keeps_aliasing h c avctx high_bit_depth :
  let c' := ff_pixblockdsp_init_aarch64 have_neon h c avctx high_bit_depth in
  (get_pixels_unaligned c = get_pixels c →
     get_pixels_unaligned c' = get_pixels c')
  ∧ (diff_pixels_unaligned c = diff_pixels c →
       diff_pixels_unaligned c' = diff_pixels c').
Proof.
  cbv zeta. destruct (have_neon (av_get_cpu_flags h)) eqn:Hneon.
  - rewrite pixblock_init_neon by done. simpl.
    destruct (high_bit_depth =? 0); done.
  - rewrite pixblock_init_no_neon by done. done.
Qed.

(** X4. With a nonzero [high_bit_depth] the two [get_pixels] slots are
    never written, whether or not the host has NEON: the 8-bit NEON
    loader cannot reach a high-bit-depth codec through this call. *)
Theorem pixblock_init_high_depth_keeps_get_pixels h c avctx high_bit_depth :
  high_bit_depth ≠ 0 →
  get_pixels (ff_pixblockdsp_init_aarch64 have_neon h c avctx high_bit_depth)
  = get_pixels c
  ∧ get_pixels_unaligned
      (ff_pixblockdsp_init_aarch64 have_neon h c avctx high_bit_depth)
    = get_pixels_unaligned c.
Proof.
  intros Hdepth%Z.eqb_neq.
  destruct (have_neon (av_get_cpu_flags h)) eqn:Hneon.
  - rewrite pixblock_init_neon by done. simpl. by rewrite Hdepth.
  - by rewrite pixblock_init_no_neon.
Qed.

(** X5. On every host and for every depth the call writes slots in pairs
    and nothing else: each pair is either left as it was or set to the
    NEON kernel of its own operation, the rest of the table is kept, and
    the [get_pixels] pair is only ever written together with the
    [diff_pixels] pair. *)
Theorem pixblock_init_frame h c avctx high_bit_depth :
  let c' := ff_pixblockdsp_init_aarch64 have_neon h c avctx high_bit_depth in
  pix_rest c' = pix_rest c
  ∧ ((get_pixels c' = get_pixels c
      ∧ get_pixels_unaligned c' = get_pixels_unaligned c)
     ∨ (get_pixels c' = Some ff_get_pixels_neon
        ∧ get_pixels_unaligned c' = Some ff_get_pixels_neon))
  ∧ ((diff_pixels c' = diff_pixels c
      ∧ diff_pixels_unaligned c' = diff_pixels_unaligned c)
     ∨ (diff_pixels c' = Some ff_diff_pixels_neon
        ∧ diff_pixels_unaligned c' = Some ff_diff_pixels_neon))
  ∧ (get_pixels c' ≠ get_pixels c
     ∨ get_pixels_unaligned c' ≠ get_pixels_unaligned c →
     diff_pixels c' = Some ff_diff_pixels_neon
     ∧ diff_pixels_unaligned c' = Some ff_diff_pixels_neon).
Proof.
  cbv zeta. destruct (have_neon (av_get_cpu_flags h)) eqn:Hneon.
  - rewrite pixblock_init_neon by done. simpl.
    destruct (high_bit_depth =? 0); split_and!; auto.
  - rewrite pixblock_init_no_neon by done.
    split_and!; auto. intros [Hne|Hne]; done.
Qed.

End PixblockLaws.

(** ** Laws of the RISC-V initialiser *)

Section LLVidEncLaws.
Import Fn CPU LLVidEncDSP.

Variable HAVE_RVV : bool.
Variable AV_CPU_FLAG_RVV_I32 : Z.
Context {Rest : Type}.

Implicit Types (h : host) (d : LLVidEncDSPContext Rest).

(** X6. Two calls of [ff_llvidencdsp_init_riscv] on two hosts commute. *)
Theorem llvidenc_init_commutes h1 h2 d :
  ff_llvidencdsp_init_riscv HAVE_RVV AV_CPU_FLAG_RVV_I32 h1
    (ff_llvidencdsp_init_riscv HAVE_RVV AV_CPU_FLAG_RVV_I32 h2 d)
  = ff_llvidencdsp_init_riscv HAVE_RVV AV_CPU_FLAG_RVV_I32 h2
      (ff_llvidencdsp_init_riscv HAVE_RVV AV_CPU_FLAG_RVV_I32 h1 d).
Proof.
  destruct (decide (HAVE_RVV = false)) as [Hcfg|Hcfg%not_false_is_true].
  { by rewrite !llvidenc_init_not_built. }
  destruct
    (decide (Z.land (av_get_cpu_flags h1) AV_CPU_FLAG_RVV_I32 = 0)) as [H1|H1],
    (decide (Z.land (av_get_cpu_flags h2) AV_CPU_FLAG_RVV_I32 = 0)) as [H2|H2];
    rewrite ?(llvidenc_init_no_flag _ _ h1), ?(llvidenc_init_no_flag _ _ h2),
      ?(llvidenc_init_rvv _ _ h1), ?(llvidenc_init_rvv _ _ h2) by done;
    rewrite ?(llvidenc_init_no_flag _ _ h1), ?(llvidenc_init_no_flag _ _ h2),
      ?(llvidenc_init_rvv _ _ h1), ?(llvidenc_init_rvv _ _ h2) by done;
    reflexivity.
Qed.

(** X7. Only the RVV_I32 bits of the flag word count: a host that reports
    further capabilities, none of them among the bits of
    [AV_CPU_FLAG_RVV_I32], gets the same table. *)
Theorem llvidenc_init_ignores_other_flags (flags other : Z) d :
  Z.land other AV_CPU_FLAG_RVV_I32 = 0 →
  ff_llvidencdsp_init_riscv HAVE_RVV AV_CPU_FLAG_RVV_I32
    {| av_get_cpu_flags := Z.lor flags other |} d
  = ff_llvidencdsp_init_riscv HAVE_RVV AV_CPU_FLAG_RVV_I32
      {| av_get_cpu_flags := flags |} d.
Proof.
  intros Hother. unfold ff_llvidencdsp_init_riscv. simpl.
  by rewrite Z.land_lor_distr_l, Hother, Z.lor_0_r.
Qed.

End LLVidEncLaws.

(** ** The level classifier and the generator flags *)

Section ClassifierAndFlags.
Import DOVI DOVIEnums.

(** X8. [ff_dovi_rpu_extension_is_static] is a C truth value, 0 or 1, on
    every [int], and it is 0 on every level below 6 or above 255, so on
    every negative one. *)
Theorem extension_is_static_range (level : Z) :
  (ff_dovi_rpu_extension_is_static level = 0
   ∨ ff_dovi_rpu_extension_is_static level = 1)
  ∧ (level < 6 ∨ 255 < level → ff_dovi_rpu_extension_is_static level = 0).
Proof.
  destruct (is_static_cases level) as [[Hin ->]|[Hout ->]].
  - split; [by right|]. intros Hrange.
    rewrite !elem_of_cons, elem_of_nil in Hin. lia.
  - split; [by left|done].
Qed.

(** X9. The three generator flags are independent bits: or-ing one into
    any flag word makes its own test succeed and leaves the tests of the
    other two as they were. *)
Theorem dovi_flags_independent (flags : Z) :
  (Z.land (Z.lor flags FF_DOVI_WRAP_NAL) FF_DOVI_WRAP_NAL ≠ 0
   ∧ Z.land (Z.lor flags FF_DOVI_WRAP_NAL) FF_DOVI_WRAP_T35
     = Z.land flags FF_DOVI_WRAP_T35
   ∧ Z.land (Z.lor flags FF_DOVI_WRAP_NAL) FF_DOVI_COMPRESS_RPU
     = Z.land flags FF_DOVI_COMPRESS_RPU)
  ∧ (Z.land (Z.lor flags FF_DOVI_WRAP_T35) FF_DOVI_WRAP_T35 ≠ 0
     ∧ Z.land (Z.lor flags FF_DOVI_WRAP_T35) FF_DOVI_WRAP_NAL
       = Z.land flags FF_DOVI_WRAP_NAL
     ∧ Z.land (Z.lor flags FF_DOVI_WRAP_T35) FF_DOVI_COMPRESS_RPU
       = Z.land flags FF_DOVI_COMPRESS_RPU)
  ∧ (Z.land (Z.lor flags FF_DOVI_COMPRESS_RPU) FF_DOVI_COMPRESS_RPU ≠ 0
     ∧ Z.land (Z.lor flags FF_DOVI_COMPRESS_RPU) FF_DOVI_WRAP_NAL
       = Z.land flags FF_DOVI_WRAP_NAL
     ∧ Z.land (Z.lor flags FF_DOVI_COMPRESS_RPU) FF_DOVI_WRAP_T35
       = Z.land flags FF_DOVI_WRAP_T35).
Proof.
  assert (Hset : ∀ bit, 0 < bit →
            Z.land (Z.lor flags bit) bit ≠ 0).
  { intros bit Hbit. rewrite Z.land_lor_distr_l, Z.land_diag.
    intros Hzero. apply Z.lor_eq_0_iff in Hzero. lia. }
  assert (Hkeep : ∀ bit bit', Z.land bit bit' = 0 →
            Z.land (Z.lor flags bit) bit' = Z.land flags bit').
  { intros bit bit' Hdisj.
    by rewrite Z.land_lor_distr_l, Hdisj, Z.lor_0_r. }
  split_and!; first [by apply Hset|by apply Hkeep].
Qed.

End ClassifierAndFlags.

(** *** The laws on concrete hosts and tables *)

Section LawExamples.
Import Fn CPU PixblockDSP LLVidEncDSP DOVI Examples.

Lemma pixblock_init_keeps_aliasing_witness :
  get_pixels_unaligned aliased_pixblock = get_pixels aliased_pixblock
  ∧ diff_pixels_unaligned aliased_pixblock = diff_pixels aliased_pixblock
  ∧ get_pixels_unaligned (ff_pixblockdsp_init_aarch64 neon_bit_test
      {| av_get_cpu_flags := 32 |} aliased_pixblock tt 1)
    = get_pixels (ff_pixblockdsp_init_aarch64 neon_bit_test
        {| av_get_cpu_flags := 32 |} aliased_pixblock tt 1)
  ∧ diff_pixels_unaligned (ff_pixblockdsp_init_aarch64 neon_bit_test
      {| av_get_cpu_flags := 32 |} aliased_pixblock tt 1)
    = diff_pixels (ff_pixblockdsp_init_aarch64 neon_bit_test
        {| av_get_cpu_flags := 32 |} aliased_pixblock tt 1).
Proof.
  destruct (pixblock_init_keeps_aliasing neon_bit_test
              {| av_get_cpu_flags := 32 |} aliased_pixblock tt 1)
    as [Hget Hdiff].
  split_and!; [reflexivity|reflexivity|..].
  - apply Hget. reflexivity.
  - apply Hdiff. reflexivity.
Defined.

Lemma pixblock_init_high_depth_keeps_get_pixels_witness :
  1 ≠ 0
  ∧ get_pixels (ff_pixblockdsp_init_aarch64 neon_bit_test
      {| av_get_cpu_flags := 32 |} scalar_pixblock tt 1)
    = Some (c_kernel 1)
  ∧ get_pixels_unaligned (ff_pixblockdsp_init_aarch64 neon_bit_test
      {| av_get_cpu_flags := 32 |} scalar_pixblock tt 1)
    = Some (c_kernel 2).
Proof.
  split; [discriminate|].
  apply (pixblock_init_high_depth_keeps_get_pixels neon_bit_test
           {| av_get_cpu_flags := 32 |} scalar_pixblock tt 1).
  discriminate.
Defined.

Lemma pixblock_init_frame_witness :
  get_pixels (ff_pixblockdsp_init_aarch64 neon_bit_test
      {| av_get_cpu_flags := 32 |} scalar_pixblock tt 0)
    ≠ get_pixels scalar_pixblock
  ∧ diff_pixels (ff_pixblockdsp_init_aarch64 neon_bit_test
      {| av_get_cpu_flags := 32 |} scalar_pixblock tt 0)
    = Some ff_diff_pixels_neon
  ∧ diff_pixels_unaligned (ff_pixblockdsp_init_aarch64 neon_bit_test
      {| av_get_cpu_flags := 32 |} scalar_pixblock tt 0)
    = Some ff_diff_pixels_neon.
Proof.
  split; [discriminate|].
  destruct (pixblock_init_frame neon_bit_test
              {| av_get_cpu_flags := 32 |} scalar_pixblock tt 0)
    as (_ & _ & _ & Hpair).
  apply Hpair. left. discriminate.
Defined.

Lemma llvidenc_init_ignores_other_flags_witness :
  Z.land 33 8 = 0
  ∧ ff_llvidencdsp_init_riscv true 8
      {| av_get_cpu_flags := Z.lor 8 33 |} scalar_llvidenc
    = ff_llvidencdsp_init_riscv true 8
        {| av_get_cpu_flags := 8 |} scalar_llvidenc
  ∧ ff_llvidencdsp_init_riscv true 8
      {| av_get_cpu_flags := Z.lor 0 33 |} scalar_llvidenc
    = scalar_llvidenc.
Proof.
  split; [reflexivity|]. split.
  - apply (llvidenc_init_ignores_other_flags true 8 8 33 scalar_llvidenc).
    reflexivity.
  - rewrite (llvidenc_init_ignores_other_flags true 8 0 33 scalar_llvidenc)
      by reflexivity.
    reflexivity.
Defined.

Lemma extension_is_static_range_witness :
  (-1 < 6 ∨ 255 < -1)
  ∧ ff_dovi_rpu_extension_is_static (-1) = 0
  ∧ ff_dovi_rpu_extension_is_static 256 = 0.
Proof.
  split; [left; lia|]. split.
  - apply (extension_is_static_range (-1)). left. lia.
  - apply (extension_is_static_range 256). right. lia.
Defined.

End LawExamples.
